(** * Version resolver of [setup.py] (thermod-monitor-dbstats)

    A shallow embedding of [get_version] from [setup.py]:

<<
    def get_version():
        main_ns = {}
        version_str = None
        with open('thermod-monitor-dbstats','rt') as script:
            for line in script:
                if line.find('__version__') == 0:
                    version_str = '# -*- coding: utf-8 -*-\n{}'.format(line)
                    break
        exec(version_str, main_ns)
        return main_ns['__version__']
>>

    The function is modelled by explicit state passing over a [world]
    (files as bytes, open handles, standard output, the locale's
    encoding, the globals of the module).  The Python primitives it
    calls ([str.find], [open], iteration over a text file with its
    decoding, [exec], dict subscription) are modelled next to it.  The
    decoding and [exec] are modelled on a part of what Python accepts and
    answer [Unmodelled] outside of it. *)

From Stdlib Require Import ZArith String Ascii List Bool Lia.
From stdpp Require Import gmap strings.
Import ListNotations.

Local Open Scope string_scope.
Local Open Scope list_scope.
Local Open Scope Z_scope.
Set Warnings "-register-all".
#[local] Arguments String.append !s1 s2 /.

(** ** Characters *)

Module Chr.

Definition LF : ascii := "010"%char.
Definition CR : ascii := "013"%char.
Definition NUL : ascii := "000"%char.
Definition TAB : ascii := "009"%char.
Definition FF : ascii := "012"%char.
Definition SPACE : ascii := " "%char.
Definition DQUOTE : ascii := "034"%char.
Definition SQUOTE : ascii := "'"%char.
Definition BACKSLASH : ascii := "\"%char.
Definition HASH : ascii := "#"%char.
Definition DOT : ascii := "."%char.
Definition UNDERSCORE : ascii := "_"%char.

Definition code (c : ascii) : N := N_of_ascii c.

Definition in_range (lo hi c : ascii) : bool :=
  (code lo <=? code c)%N && (code c <=? code hi)%N.

Definition is_digit (c : ascii) : bool := in_range "0" "9" c.

Definition is_letter (c : ascii) : bool :=
  in_range "a" "z" c || in_range "A" "Z" c.

(** First character of an ASCII identifier. *)
Definition is_id_start (c : ascii) : bool :=
  is_letter c || Ascii.eqb c UNDERSCORE.

(** Later character of an ASCII identifier. *)
Definition is_id_char (c : ascii) : bool :=
  is_id_start c || is_digit c.

(** Blank inside a logical line: space, tab, form feed. *)
Definition is_blank (c : ascii) : bool :=
  Ascii.eqb c SPACE || Ascii.eqb c TAB || Ascii.eqb c FF.

Definition is_quote (c : ascii) : bool :=
  Ascii.eqb c DQUOTE || Ascii.eqb c SQUOTE.

(** Characters outside the 7-bit range. *)
Definition is_high (c : ascii) : bool := (128 <=? code c)%N.

End Chr.

(** ** Python strings *)

(** [str.find]: the lowest index at which [sub] occurs in [s], [-1] when
    it does not occur. *)
Fixpoint str_find (s sub : string) : Z :=
  if String.prefix sub s then 0
  else match s with
       | EmptyString => -1
       | String _ s' =>
           let i := str_find s' sub in
           if i =? -1 then -1 else i + 1
       end.

Definition string_forallb (p : ascii -> bool) : string -> bool :=
  fix go (s : string) : bool :=
    match s with
    | EmptyString => true
    | String c s' => p c && go s'
    end.

(** ** Text files: decoding, universal newlines and iteration by lines *)

(** The locale's encoding, which [open] uses when none is given.
    [OtherCodec] stands for any other encoding that, like these three,
    decodes the bytes below 128 as ASCII. *)
Inductive codec : Type := Utf8 | Latin1 | UsAscii | OtherCodec.

Inductive decoding : Type :=
| Decoded (text : string)
| DecodeError
| DecodeUnmodelled.

(** The reader takes the file from the disk in chunks of this many
    bytes and decodes each chunk whole, so a file that is no longer is
    decoded when the first line is asked for. *)
Definition chunk_size : nat := 8 * 1024.

Definition is_ascii_byte (b : ascii) : bool := negb (Chr.is_high b).

(** Bytes that no UTF-8 text holds: 0xC0, 0xC1 and 0xF5 to 0xFF. *)
Definition never_in_utf8 (b : ascii) : bool :=
  ((192 <=? Chr.code b)%N && (Chr.code b <=? 193)%N) || (245 <=? Chr.code b)%N.

(** What iterating over a file in mode ['rt'] makes of its bytes.  A
    text character is written as the [ascii] of its code point, so only
    code points below 256 are covered.
    - Bytes below 128 are themselves under every encoding.
    - Latin-1 gives every byte its own code point.
    - Under ASCII a byte from 128 up, and under UTF-8 a byte that no
      UTF-8 text holds, is a [UnicodeDecodeError] as soon as the chunk it
      stands in is decoded: for a file of one chunk, at the first line.
    - What is left (multi-byte UTF-8, other encodings, a bad byte in a
      longer file, whose effect depends on where the loop stops) is not
      modelled. *)
Definition decode_file (enc : codec) (bytes : string) : decoding :=
  if string_forallb is_ascii_byte bytes then Decoded bytes
  else
    match enc with
    | Latin1 => Decoded bytes
    | UsAscii =>
        if (String.length bytes <=? chunk_size)%nat
        then DecodeError else DecodeUnmodelled
    | Utf8 =>
        if (String.length bytes <=? chunk_size)%nat
           && negb (string_forallb (fun b => negb (never_in_utf8 b)) bytes)
        then DecodeError else DecodeUnmodelled
    | OtherCodec => DecodeUnmodelled
    end.

(** A file opened in mode ['rt'] translates ["\r\n"] and a lone ["\r"]
    to ["\n"]. *)
Fixpoint universal_newlines (s : string) : string :=
  match s with
  | EmptyString => EmptyString
  | String c s' =>
      if Ascii.eqb c Chr.CR then
        match s' with
        | String c' s'' =>
            if Ascii.eqb c' Chr.LF
            then String Chr.LF (universal_newlines s'')
            else String Chr.LF (universal_newlines s')
        | EmptyString => String Chr.LF EmptyString
        end
      else String c (universal_newlines s')
  end.

(** The lines a text file yields when iterated: each one keeps its
    terminating ["\n"]; the last one has none when the text does not end
    with one. *)
Fixpoint text_lines (s : string) : list string :=
  match s with
  | EmptyString => []
  | String c s' =>
      if Ascii.eqb c Chr.LF then String c EmptyString :: text_lines s'
      else match text_lines s' with
           | [] => [String c EmptyString]
           | l :: ls => String c l :: ls
           end
  end.

(** ** Values, exceptions and outcomes *)

(** Python objects that the modelled fragment can produce.  [VFloat m e]
    stands for the float written as the decimal literal [m / 10^e];
    [VBuiltins] for the builtins module that [exec] stores under
    ["__builtins__"]; [VFile p mode] for a file object opened on [p]. *)
Inductive value : Type :=
| VNone
| VBool (b : bool)
| VInt (z : Z)
| VFloat (m : Z) (e : nat)
| VStr (s : string)
| VTuple (vs : list value)
| VBuiltins
| VFile (path mode : string).

Definition is_str (v : value) : bool :=
  match v with VStr _ => true | _ => false end.

(** The exceptions raised on the modelled paths. *)
Inductive exn : Type :=
| FileNotFoundError (path : string)
| PermissionError (path : string)
| IsADirectoryError (path : string)
| UnicodeDecodeError
| TypeError
| KeyError (key : string).

(** [FileNotFoundError], [PermissionError] and [IsADirectoryError] are the
    subclasses of [OSError]. *)
Definition is_OSError (e : exn) : bool :=
  match e with
  | FileNotFoundError _ | PermissionError _ | IsADirectoryError _ => true
  | UnicodeDecodeError | TypeError | KeyError _ => false
  end.

(** What a call does: return a value, raise an exception, or leave the
    modelled fragment of Python. *)
Inductive outcome (A : Type) : Type :=
| Return (a : A)
| Raise (e : exn)
| Unmodelled.
Arguments Return {A} a.
Arguments Raise {A} e.
Arguments Unmodelled {A}.

(** ** The world *)

(** A directory entry; a regular file holds bytes. *)
Inductive node : Type :=
| Directory
| Regular (readable writable : bool) (bytes : string).

(** The files, the handles that are open, what has been written to the
    standard output, the locale's encoding, and the globals of the module
    that calls [get_version]. *)
Record world : Type := World {
  files : gmap string node;
  handles : list string;
  stdout : string;
  encoding : codec;
  module_globals : gmap string value
}.

Definition set_files (fs : gmap string node) (w : world) : world :=
  World fs (handles w) (stdout w) (encoding w) (module_globals w).
Definition set_handles (hs : list string) (w : world) : world :=
  World (files w) hs (stdout w) (encoding w) (module_globals w).
Definition set_stdout (out : string) (w : world) : world :=
  World (files w) (handles w) out (encoding w) (module_globals w).

(** State-and-exception passing. *)
Definition py (A : Type) : Type := world -> outcome A * world.

Definition py_ret {A} (a : A) : py A := fun w => (Return a, w).
Definition py_raise {A} (e : exn) : py A := fun w => (Raise e, w).
Definition py_unmodelled {A} : py A := fun w => (Unmodelled, w).
Definition py_bind {A B} (m : py A) (k : A -> py B) : py B :=
  fun w =>
    match m w with
    | (Return a, w') => k a w'
    | (Raise e, w') => (Raise e, w')
    | (Unmodelled, w') => (Unmodelled, w')
    end.

Notation "'do' x <- m ; k" := (py_bind m (fun x => k))
  (at level 10, x name, m at level 100, k at level 200).
Notation "'run' m ; k" := (py_bind m (fun _ => k))
  (at level 10, m at level 100, k at level 200).

(** [open(path, 'rt')]: the handle is recorded as open; the file object
    is written as the bytes it will read. *)
Definition open_rt (path : string) : py string :=
  fun w =>
    match files w !! path with
    | None => (Raise (FileNotFoundError path), w)
    | Some Directory => (Raise (IsADirectoryError path), w)
    | Some (Regular false _ _) => (Raise (PermissionError path), w)
    | Some (Regular true _ bytes) =>
        (Return bytes, set_handles (path :: handles w) w)
    end.

(** The lines that iterating over the file object yields, or the
    [UnicodeDecodeError] that the first request for a line raises. *)
Definition iterate (script : string) : py (list string) :=
  fun w =>
    match decode_file (encoding w) script with
    | Decoded text => (Return (text_lines (universal_newlines text)), w)
    | DecodeError => (Raise UnicodeDecodeError, w)
    | DecodeUnmodelled => (Unmodelled, w)
    end.

Fixpoint remove_first (p : string) (hs : list string) : list string :=
  match hs with
  | [] => []
  | h :: hs' => if String.eqb h p then hs' else h :: remove_first p hs'
  end.

Definition close (path : string) (w : world) : world :=
  set_handles (remove_first path (handles w)) w.

(** [with open(path, 'rt') as script: body]: the handle is closed when
    the block is left, by its end, by [break] or by an exception. *)
Definition with_open_rt {A} (path : string) (body : string -> py A) : py A :=
  fun w =>
    match open_rt path w with
    | (Return script, w1) =>
        match body script w1 with
        | (o, w2) => (o, close path w2)
        end
    | (Raise e, w1) => (Raise e, w1)
    | (Unmodelled, w1) => (Unmodelled, w1)
    end.

(** [open(path, 'w')] on an existing entry: a writable regular file is
    truncated and stays open.  Creating a missing file depends on the
    directory that would hold it, which the flat [files] map does not
    describe. *)
Definition open_w (path : string) : py value :=
  fun w =>
    match files w !! path with
    | None => (Unmodelled, w)
    | Some Directory => (Raise (IsADirectoryError path), w)
    | Some (Regular _ false _) => (Raise (PermissionError path), w)
    | Some (Regular r true _) =>
        (Return (VFile path "w"),
         set_handles (path :: handles w)
           (set_files (<[path := Regular r true ""]> (files w)) w))
    end.

(** [print(s)] for one string argument. *)
Definition print (s : string) : py value :=
  fun w =>
    (Return VNone, set_stdout (stdout w +:+ s +:+ String Chr.LF "") w).

(** ** [exec]: the lexer of the modelled fragment

    The fragment has names, decimal integers of at most [max_digits]
    digits, floats of the shape [digits.digits], string literals in
    single or double quotes with the escapes [\t], [\n], [\\], [\'] and
    backslash-double-quote, the delimiters [= ( ) ,], comments and blank
    lines.  Every other character, another escape, an indented
    statement, a prefixed or triple-quoted string and a carriage return
    or NUL anywhere make the lexer answer [None]. *)

Inductive token : Type :=
| TName (n : string)
| TStr (s : string)
| TInt (z : Z)
| TFloat (m : Z) (e : nat)
| TOp (c : ascii)
| TNewline.

Inductive lex_state : Type :=
| LBol                          (* at the beginning of a line *)
| LIndent                       (* blanks seen at the beginning of a line *)
| LCode                         (* inside a line, between tokens *)
| LComment                      (* after [#] *)
| LName (acc : string)
| LInt (acc : string)           (* integer part *)
| LDot (ip : string)            (* integer part and the dot *)
| LFrac (ip fp : string)        (* integer part, dot, fraction digits *)
| LStr (q : ascii) (acc : string)
| LEscape (q : ascii) (acc : string)  (* after a backslash in a literal *)
| LEmptyStr (q : ascii).        (* just after an empty literal [qq] *)

Definition snoc (s : string) (c : ascii) : string := s +:+ String c "".

Definition digit_val (c : ascii) : Z := Z.of_N (Chr.code c) - 48.

Fixpoint digits_val (acc : Z) (s : string) : Z :=
  match s with
  | EmptyString => acc
  | String c s' => digits_val (10 * acc + digit_val c) s'
  end.

Fixpoint all_zero (s : string) : bool :=
  match s with
  | EmptyString => true
  | String c s' => Ascii.eqb c "0" && all_zero s'
  end.

(** CPython refuses decimal literals beyond a configurable number of
    digits, 4300 unless set otherwise and never set below 640. *)
Definition max_digits : nat := 640.

(** A decimal integer literal has no leading zero unless it is all zeros. *)
Definition int_token (acc : string) : option token :=
  match acc with
  | EmptyString => None
  | String c _ =>
      if (negb (Ascii.eqb c "0") || all_zero acc)
         && (String.length acc <=? max_digits)%nat
      then Some (TInt (digits_val 0 acc))
      else None
  end.

(** The character that a backslash and [c] stand for in a literal. *)
Definition escape_char (c : ascii) : option ascii :=
  if Ascii.eqb c "t" then Some Chr.TAB
  else if Ascii.eqb c "n" then Some Chr.LF
  else if Ascii.eqb c Chr.BACKSLASH then Some Chr.BACKSLASH
  else if Chr.is_quote c then Some c
  else None.

Definition float_token (ip fp : string) : token :=
  TFloat (digits_val 0 (ip +:+ fp)) (String.length fp).

Definition is_delim (c : ascii) : bool :=
  Ascii.eqb c "=" || Ascii.eqb c "(" || Ascii.eqb c ")" || Ascii.eqb c ",".

(** A character that no state accepts. *)
Definition is_forbidden (c : ascii) : bool :=
  Ascii.eqb c Chr.CR || Ascii.eqb c Chr.NUL.

(** One character read between tokens. *)
Definition lex_code (c : ascii) : option (list token * lex_state) :=
  if Chr.is_blank c then Some ([], LCode)
  else if Ascii.eqb c Chr.LF then Some ([TNewline], LBol)
  else if Ascii.eqb c Chr.HASH then Some ([], LComment)
  else if Chr.is_id_start c then Some ([], LName (String c ""))
  else if Chr.is_digit c then Some ([], LInt (String c ""))
  else if Chr.is_quote c then Some ([], LStr c "")
  else if is_delim c then Some ([TOp c], LCode)
  else None.

(** A pending token is closed by the first character that cannot extend
    it; that character is then read between tokens. *)
Definition emit_then (t : token) (c : ascii) : option (list token * lex_state) :=
  match lex_code c with
  | Some (ts, st) => Some (t :: ts, st)
  | None => None
  end.

Definition lex_step (st : lex_state) (c : ascii) : option (list token * lex_state) :=
  if is_forbidden c then None else
  match st with
  | LBol =>
      if Chr.is_blank c then Some ([], LIndent) else lex_code c
  | LIndent =>
      if Chr.is_blank c then Some ([], LIndent)
      else if Ascii.eqb c Chr.LF then Some ([TNewline], LBol)
      else if Ascii.eqb c Chr.HASH then Some ([], LComment)
      else None
  | LCode => lex_code c
  | LComment =>
      if Ascii.eqb c Chr.LF then Some ([TNewline], LBol) else Some ([], LComment)
  | LName acc =>
      if Chr.is_id_char c then Some ([], LName (snoc acc c))
      else if Chr.is_quote c || Chr.is_high c then None
      else emit_then (TName acc) c
  | LInt acc =>
      if Chr.is_digit c then Some ([], LInt (snoc acc c))
      else if Ascii.eqb c Chr.DOT then Some ([], LDot acc)
      else if Chr.is_id_start c || Chr.is_quote c || Chr.is_high c then None
      else match int_token acc with
           | Some t => emit_then t c
           | None => None
           end
  | LDot ip =>
      if Chr.is_digit c then Some ([], LFrac ip (String c "")) else None
  | LFrac ip fp =>
      if Chr.is_digit c then Some ([], LFrac ip (snoc fp c))
      else if Ascii.eqb c Chr.DOT || Chr.is_id_start c
              || Chr.is_quote c || Chr.is_high c then None
      else emit_then (float_token ip fp) c
  | LStr q acc =>
      if Ascii.eqb c q then
        match acc with
        | EmptyString => Some ([], LEmptyStr q)
        | _ => Some ([TStr acc], LCode)
        end
      else if Ascii.eqb c Chr.BACKSLASH then Some ([], LEscape q acc)
      else if Ascii.eqb c Chr.LF then None
      else Some ([], LStr q (snoc acc c))
  | LEscape q acc =>
      match escape_char c with
      | Some d => Some ([], LStr q (snoc acc d))
      | None => None
      end
  | LEmptyStr q =>
      if Chr.is_quote c then None else emit_then (TStr "") c
  end.

(** End of the source text. *)
Definition lex_eof (st : lex_state) : option (list token) :=
  match st with
  | LBol | LIndent | LCode | LComment => Some []
  | LName acc => Some [TName acc]
  | LInt acc => match int_token acc with Some t => Some [t] | None => None end
  | LDot _ => None
  | LFrac ip fp => Some [float_token ip fp]
  | LStr _ _ | LEscape _ _ => None
  | LEmptyStr _ => Some [TStr ""]
  end.

Fixpoint lex (st : lex_state) (s : string) : option (list token) :=
  match s with
  | EmptyString => lex_eof st
  | String c s' =>
      match lex_step st c with
      | None => None
      | Some (ts, st') =>
          match lex st' s' with
          | None => None
          | Some ts' => Some (ts ++ ts')
          end
      end
  end.

(** ** [exec]: the parser of the modelled fragment

    A source is a sequence of logical lines, each one an assignment
    [name = expression] to a name that is not reserved.  Expressions are
    literals, [None], [True], [False], parenthesised expressions, tuple
    displays, and the calls [print(<string literal>)] and
    [open(<string literal>, <string literal>)].  CPython refuses
    parentheses nested beyond a depth that depends on its version (200
    in the current ones, fewer in older parsers); the fragment stops at
    [max_nesting]. *)

Inductive expr : Type :=
| ENone
| EBool (b : bool)
| EInt (z : Z)
| EFloat (m : Z) (e : nat)
| EStr (s : string)
| ETuple (es : list expr)
| EPrint (s : string)
| EOpen (path mode : string).

Inductive stmt : Type :=
| SAssign (target : string) (e : expr).

Definition keywords : list string :=
  ["False"; "None"; "True"; "and"; "as"; "assert"; "async"; "await";
   "break"; "class"; "continue"; "def"; "del"; "elif"; "else"; "except";
   "finally"; "for"; "from"; "global"; "if"; "import"; "in"; "is";
   "lambda"; "nonlocal"; "not"; "or"; "pass"; "raise"; "return"; "try";
   "while"; "with"; "yield"].

(** Names that an assignment cannot bind. *)
Definition is_reserved (n : string) : bool :=
  existsb (String.eqb n) keywords || String.eqb n "__debug__".

Definition parse_name (n : string) (rest : list token) : option (expr * list token) :=
  if String.eqb n "None" then Some (ENone, rest)
  else if String.eqb n "True" then Some (EBool true, rest)
  else if String.eqb n "False" then Some (EBool false, rest)
  else if String.eqb n "print" then
    match rest with
    | TOp "(" :: TStr s :: TOp ")" :: rest' => Some (EPrint s, rest')
    | _ => None
    end
  else if String.eqb n "open" then
    match rest with
    | TOp "(" :: TStr p :: TOp "," :: TStr m :: TOp ")" :: rest' =>
        Some (EOpen p m, rest')
    | _ => None
    end
  else None.

Definition max_nesting : nat := 32.

(** [room] is the number of parentheses that may still be opened. *)
Fixpoint parse_expr (fuel room : nat) (ts : list token)
  : option (expr * list token) :=
  match fuel with
  | O => None
  | S fuel' =>
      match ts with
      | TStr s :: rest => Some (EStr s, rest)
      | TInt z :: rest => Some (EInt z, rest)
      | TFloat m e :: rest => Some (EFloat m e, rest)
      | TName n :: rest => parse_name n rest
      | TOp "(" :: rest =>
          match room with
          | O => None
          | S room' =>
              match rest with
              | TOp ")" :: rest' => Some (ETuple [], rest')
              | _ =>
                  match parse_expr fuel' room' rest with
                  | Some (e, TOp ")" :: rest') => Some (e, rest')
                  | Some (e, TOp "," :: rest') =>
                      match parse_items fuel' room' rest' with
                      | Some (es, rest'') => Some (ETuple (e :: es), rest'')
                      | None => None
                      end
                  | _ => None
                  end
              end
          end
      | _ => None
      end
  end
with parse_items (fuel room : nat) (ts : list token)
  : option (list expr * list token) :=
  match fuel with
  | O => None
  | S fuel' =>
      match ts with
      | TOp ")" :: rest => Some ([], rest)
      | _ =>
          match parse_expr fuel' room ts with
          | Some (e, TOp ")" :: rest) => Some ([e], rest)
          | Some (e, TOp "," :: rest) =>
              match parse_items fuel' room rest with
              | Some (es, rest') => Some (e :: es, rest')
              | None => None
              end
          | _ => None
          end
      end
  end.

Definition parse_stmt (ts : list token) : option stmt :=
  match ts with
  | TName n :: TOp "=" :: rest =>
      if is_reserved n then None
      else match parse_expr (S (List.length rest)) max_nesting rest with
           | Some (e, []) => Some (SAssign n e)
           | _ => None
           end
  | _ => None
  end.

(** The token list cut at every [TNewline]; [cur] holds the tokens of the
    line being read, last one first.  Empty lines are dropped. *)
Fixpoint logical_lines (cur : list token) (ts : list token) : list (list token) :=
  match ts with
  | [] => match cur with [] => [] | _ => [rev cur] end
  | TNewline :: rest =>
      match cur with
      | [] => logical_lines [] rest
      | _ => rev cur :: logical_lines [] rest
      end
  | t :: rest => logical_lines (t :: cur) rest
  end.

Fixpoint parse_stmts (ls : list (list token)) : option (list stmt) :=
  match ls with
  | [] => Some []
  | l :: ls' =>
      match parse_stmt l, parse_stmts ls' with
      | Some s, Some ss => Some (s :: ss)
      | _, _ => None
      end
  end.

Definition parse_program (src : string) : option (list stmt) :=
  match lex LBol src with
  | None => None
  | Some ts => parse_stmts (logical_lines [] ts)
  end.

(** ** [exec]: evaluation *)

(** [print] and [open] denote the builtins as long as the namespace does
    not rebind them and ["__builtins__"] is the builtins module.  What
    they do with text or a path outside ASCII depends on further
    encodings and is not modelled. *)
Definition builtin_visible (name : string) (ns : gmap string value) : bool :=
  match ns !! name, ns !! "__builtins__" with
  | None, Some VBuiltins => true
  | _, _ => false
  end.

Fixpoint eval (ns : gmap string value) (e : expr) : py value :=
  match e with
  | ENone => py_ret VNone
  | EBool b => py_ret (VBool b)
  | EInt z => py_ret (VInt z)
  | EFloat m k => py_ret (VFloat m k)
  | EStr s => py_ret (VStr s)
  | ETuple es =>
      do vs <- (fix eval_items (es : list expr) : py (list value) :=
                  match es with
                  | [] => py_ret []
                  | e' :: es' =>
                      do v <- eval ns e';
                      do vs <- eval_items es';
                      py_ret (v :: vs)
                  end) es;
      py_ret (VTuple vs)
  | EPrint s =>
      if builtin_visible "print" ns && string_forallb is_ascii_byte s
      then print s else py_unmodelled
  | EOpen p m =>
      if builtin_visible "open" ns && string_forallb is_ascii_byte p
      then (if String.eqb m "w" then open_w p else py_unmodelled)
      else py_unmodelled
  end.

(** Statements run in order; an assignment evaluates its right-hand side
    and then binds the target in the namespace. *)
Fixpoint exec_stmts (ss : list stmt) (ns : gmap string value)
  : py (gmap string value) :=
  match ss with
  | [] => py_ret ns
  | SAssign n e :: ss' =>
      do v <- eval ns e;
      exec_stmts ss' (<[n := v]> ns)
  end.

(** [exec(source, globals)].  A source that is not a string is a
    [TypeError]; the builtins module is stored under ["__builtins__"] when
    the namespace has no such key; the whole source is compiled before
    any of it runs.  The result is the namespace as [exec] leaves it. *)
Definition py_exec (source : option string) (globals : gmap string value)
  : py (gmap string value) :=
  match source with
  | None => py_raise TypeError
  | Some src =>
      match parse_program src with
      | None => py_unmodelled
      | Some ss =>
          let globals' :=
            match globals !! "__builtins__" with
            | Some _ => globals
            | None => <["__builtins__" := VBuiltins]> globals
            end in
          exec_stmts ss globals'
      end
  end.

(** [d[key]]. *)
Definition subscript (d : gmap string value) (key : string) : py value :=
  match d !! key with
  | Some v => py_ret v
  | None => py_raise (KeyError key)
  end.

(** ** [get_version] *)

Definition script_path : string := "thermod-monitor-dbstats".
Definition marker : string := "__version__".
Definition preamble : string := "# -*- coding: utf-8 -*-" +:+ String Chr.LF "".

(** [line.find('__version__') == 0] *)
Definition is_marker_line (line : string) : bool := str_find line marker =? 0.

(** The [for] loop with its [break].  Beside [version_str] it gives the
    number of lines that the iteration over the file has yielded. *)
Fixpoint scan (lines : list string) (version_str : option string) (yielded : nat)
  : option string * nat :=
  match lines with
  | [] => (version_str, yielded)
  | line :: rest =>
      if is_marker_line line
      then (Some (preamble +:+ line), S yielded)
      else scan rest version_str (S yielded)
  end.

Definition get_version : py value :=
  let main_ns : gmap string value := ∅ in
  let version_str : option string := None in
  do version_str <-
    with_open_rt script_path (fun script =>
      do lines <- iterate script;
      py_ret (fst (scan lines version_str 0)));
  do main_ns <- py_exec version_str main_ns;
  subscript main_ns "__version__".

(** The bytes of the script, when it can be opened for reading. *)
Definition script_bytes (w : world) : option string :=
  match files w !! script_path with
  | Some (Regular true _ bytes) => Some bytes
  | _ => None
  end.

(** The lines that iterating over the script yields, when it can be
    opened for reading and its bytes decode. *)
Definition script_lines (w : world) : option (list string) :=
  match script_bytes w with
  | Some bytes =>
      match decode_file (encoding w) bytes with
      | Decoded text => Some (text_lines (universal_newlines text))
      | _ => None
      end
  | None => None
  end.

(** The exception of [open] or of the decoding, when reading the script
    fails. *)
Definition script_failure (w : world) : option exn :=
  match files w !! script_path with
  | None => Some (FileNotFoundError script_path)
  | Some Directory => Some (IsADirectoryError script_path)
  | Some (Regular false _ _) => Some (PermissionError script_path)
  | Some (Regular true _ bytes) =>
      match decode_file (encoding w) bytes with
      | DecodeError => Some UnicodeDecodeError
      | _ => None
      end
  end.


(** ** Marker lines of the expected shape *)

Definition eol (terminated : bool) : string :=
  if terminated then String Chr.LF "" else "".

(** [name = qvq], with or without its line terminator. *)
Definition assignment_line (name : string) (q : ascii) (v : string)
    (terminated : bool) : string :=
  name +:+ " = " +:+ String q (v +:+ String q (eol terminated)).

(** The line [__version__ = "v"]. *)
Definition version_line (v : string) (terminated : bool) : string :=
  assignment_line marker Chr.DQUOTE v terminated.

(** A character that a literal quoted by [q] holds as itself. *)
Definition plain_char (q c : ascii) : bool :=
  negb (Ascii.eqb c q) && negb (Ascii.eqb c Chr.BACKSLASH)
  && negb (Ascii.eqb c Chr.LF) && negb (is_forbidden c).

Definition plain_body (q : ascii) (v : string) : bool :=
  string_forallb (plain_char q) v.

(** The characters of version identifiers: letters, digits and [. + - ! _]. *)
Definition is_version_char (c : ascii) : bool :=
  Chr.is_id_char c || Ascii.eqb c "." || Ascii.eqb c "+"
  || Ascii.eqb c "-" || Ascii.eqb c "!".

Definition is_version_string (v : string) : bool :=
  string_forallb is_version_char v.

Definition id_suffix (s : string) : bool := string_forallb Chr.is_id_char s.

(** ** Effect-free sources *)





(** ** Auxiliary definitions for the statements *)

(** No line of [lines] starts with the marker. *)
Definition no_marker (lines : list string) : bool :=
  forallb (fun l => negb (is_marker_line l)) lines.



(** The lexer run over a piece of text that is followed by more text. *)
Fixpoint lex_run (st : lex_state) (s : string) : option (list token * lex_state) :=
  match s with
  | EmptyString => Some ([], st)
  | String c s' =>
      match lex_step st c with
      | None => None
      | Some (ts, st') =>
          match lex_run st' s' with
          | None => None
          | Some (ts', st'') => Some (ts ++ ts', st'')
          end
      end
  end.

Definition eol_tokens (terminated : bool) : list token :=
  if terminated then [TNewline] else [].

(** The last two statements of [get_version]. *)
Definition resolve (version_str : option string) : py value :=
  do main_ns <- py_exec version_str ∅;
  subscript main_ns marker.

(** ** Example scripts *)

Definition nl : string := String Chr.LF "".

(** A world whose only file is the script, readable and writable. *)
Definition script_world (text : string) : world :=
  World {[ script_path := Regular true true text ]} [] "" Utf8 ∅.

Definition shebang : string := "#!/usr/bin/env python3" +:+ nl.


(** Two marker lines with different values. *)
Definition two_markers_script : list string :=
  [shebang; version_line "1.0.0" true; "import sys" +:+ nl;
   version_line "2.0.0" true].





(** A byte that neither ASCII nor UTF-8 decodes. *)
Definition bad_byte : ascii := "255"%char.

(** A comment line that holds the bad byte. *)
Definition bad_comment : string := "# " +:+ String bad_byte nl.





(** No marker line, and the bad byte. *)
Definition bad_no_marker_script : list string :=
  [bad_comment; "import sys" +:+ nl].



(** Marker lines that bind a tuple and a float. *)
Definition tuple_line : string := "__version__ = (1, 2, 0)" +:+ nl.
Definition float_line : string := "__version__ = 1.2" +:+ nl.

Definition concat_lines (lines : list string) : string :=
  fold_right String.append "" lines.

(** ** The module body of [setup.py]

<<
    setup(name='thermod-monitor-dbstats',
          version=get_version(),
          description='Thermod DB-Stats monitor.',
          long_description='Thermod DB-Stats monitor collects statistics on Thermod operation',
          author='Simone Rossetto',
          author_email='simros85@gmail.com',
          url='https://github.com/droscy/thermod-monitor-dbstats',
          license = 'GPL-3.0+',
          scripts=['thermod-monitor-dbstats'],
          install_requires=['thermod >= 1.2.0',
                            'requests >= 2.4.3'])
>>

    [setup] comes from setuptools and is a parameter here.  Its keyword
    arguments are evaluated before it is called; [get_version()] is the
    only one of them that is not a constant. *)

Module SetupPy.

Record setup_args : Type := SetupArgs {
  name : string;
  version : value;
  description : string;
  long_description : string;
  author : string;
  author_email : string;
  url : string;
  license : string;
  scripts : list string;
  install_requires : list string
}.

(** The keyword arguments, given the value of [get_version()]. *)
Definition keywords_of (v : value) : setup_args :=
  {| name := "thermod-monitor-dbstats";
     version := v;
     description := "Thermod DB-Stats monitor.";
     long_description :=
       "Thermod DB-Stats monitor collects statistics on Thermod operation";
     author := "Simone Rossetto";
     author_email := "simros85@gmail.com";
     url := "https://github.com/droscy/thermod-monitor-dbstats";
     license := "GPL-3.0+";
     scripts := ["thermod-monitor-dbstats"];
     install_requires := ["thermod >= 1.2.0"; "requests >= 2.4.3"] |}.

Section Body.

Variable setup : setup_args -> py value.

(** The statement [setup(...)]; the value that [setup] returns is dropped. *)
Definition module_body : py unit :=
  do v <- get_version;
  run setup (keywords_of v);
  py_ret tt.

End Body.

(** A stand-in for [setup] that writes the name and, when it is a string,
    the version it was given to the standard output. *)
Definition echo_setup (args : setup_args) : py value :=
  fun w =>
    (Return VNone,
     set_stdout
       (stdout w +:+ name args +:+ " "
        +:+ match version args with VStr s => s | _ => "?" end) w).

End SetupPy.

(** ** Marker lines with free spacing and a trailing comment *)

(** A character that a comment holds. *)
Definition comment_char (c : ascii) : bool :=
  negb (Ascii.eqb c Chr.LF) && negb (is_forbidden c).

Definition trailing_comment (text : option string) : string :=
  match text with
  | None => ""
  | Some t => String Chr.HASH t
  end.

(** [__version__<b1>=<b2>qvq<b3>#comment], with or without its line
    terminator; [b1], [b2], [b3] are runs of blanks. *)
Definition spaced_line (b1 b2 b3 : string) (q : ascii) (v : string)
    (comment : option string) (terminated : bool) : string :=
  marker +:+ b1 +:+ "=" +:+ b2
  +:+ String q (v +:+ String q (b3 +:+ trailing_comment comment +:+ eol terminated)).

Definition blanks (s : string) : bool := string_forallb Chr.is_blank s.

(** ** Windows line ends *)



(** Reading the script fails, or none of its lines starts with the
    marker. *)
Definition unusable_script (w : world) : bool :=
  match script_lines w with
  | None => match script_failure w with Some _ => true | None => false end
  | Some lines => no_marker lines
  end.

(** Example scripts for the statements below. *)
Definition spaced_script : list string :=
  [shebang;
   spaced_line "" "  " " " Chr.SQUOTE "1.2.0" (Some " released") true;
   "main()" +:+ nl].

Definition print_line : string := "__version__ = print('1.0')" +:+ nl.

(** * Properties *)

(** ** [str.find] and the marker test *)

Lemma str_find_unfold (s sub : string) :
  str_find s sub =
  if String.prefix sub s then 0
  else match s with
       | EmptyString => -1
       | String _ s' =>
           if str_find s' sub =? -1 then -1 else str_find s' sub + 1
       end.
Proof. destruct s; reflexivity. Qed.

Lemma str_find_lower_bound (s sub : string) : -1 <= str_find s sub.
Proof.
  induction s as [|c s IH]; rewrite str_find_unfold.
  - destruct (String.prefix sub ""); lia.
  - destruct (String.prefix sub (String c s)); [lia|].
    destruct (str_find s sub =? -1); lia.
Qed.

Lemma str_find_zero (s sub : string) :
  str_find s sub = 0 <-> String.prefix sub s = true.
Proof.
  rewrite str_find_unfold. split.
  - destruct (String.prefix sub s); [reflexivity|].
    destruct s as [|c s]; [discriminate|].
    pose proof (str_find_lower_bound s sub) as Hlb.
    destruct (str_find s sub =? -1) eqn:E; [discriminate|].
    apply Z.eqb_neq in E. lia.
  - intros ->. reflexivity.
Qed.

Lemma prefix_append (p s : string) : String.prefix p (p +:+ s) = true.
Proof.
  induction p as [|c p IH]; simpl.
  - destruct s; reflexivity.
  - destruct (ascii_dec c c) as [_|Hne]; [exact IH | congruence].
Qed.

Lemma prefix_split (p s : string) :
  String.prefix p s = true -> exists rest, s = p +:+ rest.
Proof.
  revert s. induction p as [|c p IH]; intros s H.
  - exists s. reflexivity.
  - destruct s as [|d s]; simpl in H; [discriminate|].
    destruct (ascii_dec c d) as [->|_]; [|discriminate].
    destruct (IH s H) as [rest ->]. exists rest. reflexivity.
Qed.

(** A line passes the test of the loop exactly when it starts with the
    marker. *)
Lemma is_marker_line_spec (line : string) :
  is_marker_line line = true <-> exists rest, line = marker +:+ rest.
Proof.
  unfold is_marker_line. rewrite Z.eqb_eq, str_find_zero. split.
  - apply prefix_split.
  - intros [rest ->]. apply prefix_append.
Qed.


(** ** The loop *)

Lemma no_marker_cons (l : string) (ls : list string) :
  no_marker (l :: ls) = true -> is_marker_line l = false /\ no_marker ls = true.
Proof.
  unfold no_marker. simpl. intros H. apply andb_true_iff in H as [Hl Hls].
  apply negb_true_iff in Hl. split; assumption.
Qed.

(** Lines without the marker at their start are passed over, one by one. *)
Lemma scan_skip (pre rest : list string) (vs : option string) (n : nat) :
  no_marker pre = true ->
  scan (pre ++ rest) vs n = scan rest vs (List.length pre + n)%nat.
Proof.
  revert n. induction pre as [|l pre IH]; intros n H; simpl.
  - reflexivity.
  - apply no_marker_cons in H as [Hl Hpre]. rewrite Hl, IH by exact Hpre.
    f_equal. lia.
Qed.

Lemma scan_none (lines : list string) (vs : option string) (n : nat) :
  no_marker lines = true -> scan lines vs n = (vs, (List.length lines + n)%nat).
Proof.
  intros H. rewrite <- (app_nil_r lines) at 1.
  rewrite scan_skip by exact H. reflexivity.
Qed.

(** The loop stops at the first line that starts with the marker. *)
Lemma scan_first (pre post : list string) (line : string) :
  no_marker pre = true -> is_marker_line line = true ->
  scan (pre ++ line :: post) None 0
  = (Some (preamble +:+ line), S (List.length pre)).
Proof.
  intros Hpre Hline. rewrite scan_skip by exact Hpre. simpl.
  rewrite Hline. f_equal. f_equal. lia.
Qed.

(** ** Strings and lines of text *)

Lemma str_app_assoc (a b c : string) : (a +:+ b) +:+ c = a +:+ (b +:+ c).
Proof. induction a as [|x a IH]; simpl; [reflexivity | rewrite IH; reflexivity]. Qed.

Lemma str_app_nil_r (a : string) : a +:+ "" = a.
Proof. induction a as [|x a IH]; simpl; [reflexivity | rewrite IH; reflexivity]. Qed.


Lemma string_forallb_impl (p p' : ascii -> bool) (s : string) :
  (forall c, p c = true -> p' c = true) ->
  string_forallb p s = true -> string_forallb p' s = true.
Proof.
  intros Himp. induction s as [|x s IH]; simpl; [reflexivity|].
  intros H. apply andb_true_iff in H as [Hx Hs].
  rewrite (Himp x Hx), (IH Hs). reflexivity.
Qed.






(** ** The lexer on a marker line *)

Lemma lex_app (st : lex_state) (s1 s2 : string) :
  lex st (s1 +:+ s2) =
  match lex_run st s1 with
  | None => None
  | Some (ts, st') =>
      match lex st' s2 with
      | None => None
      | Some ts' => Some (ts ++ ts')
      end
  end.
Proof.
  revert st. induction s1 as [|c s1 IH]; intros st; simpl.
  - destruct (lex st s2); reflexivity.
  - destruct (lex_step st c) as [[ts st']|]; [|reflexivity].
    rewrite IH. destruct (lex_run st' s1) as [[ts1 st1]|]; [|reflexivity].
    destruct (lex st1 s2); [|reflexivity].
    rewrite app_assoc. reflexivity.
Qed.

Lemma id_char_not_forbidden (c : ascii) :
  Chr.is_id_char c = true -> is_forbidden c = false.
Proof.
  destruct c as [[] [] [] [] [] [] [] []]; intros H;
    solve [reflexivity | discriminate H].
Qed.


(** Identifier characters extend the name being read. *)
Lemma lex_run_name (acc sfx : string) :
  id_suffix sfx = true ->
  lex_run (LName acc) sfx = Some ([], LName (acc +:+ sfx)).
Proof.
  revert acc. induction sfx as [|c sfx IH]; intros acc H; simpl.
  - rewrite str_app_nil_r. reflexivity.
  - simpl in H. apply andb_true_iff in H as [Hc Hs].
    unfold lex_step. rewrite (id_char_not_forbidden c Hc), Hc.
    rewrite (IH _ Hs). unfold snoc. rewrite str_app_assoc. reflexivity.
Qed.

(** Plain characters extend the literal being read. *)
Lemma lex_run_body (q : ascii) (acc v : string) :
  plain_body q v = true ->
  lex_run (LStr q acc) v = Some ([], LStr q (acc +:+ v)).
Proof.
  revert acc. induction v as [|c v IH]; intros acc H; simpl.
  - rewrite str_app_nil_r. reflexivity.
  - simpl in H. apply andb_true_iff in H as [Hc Hv].
    unfold plain_char in Hc.
    apply andb_true_iff in Hc as [Hc Hf]. apply andb_true_iff in Hc as [Hc Hlf].
    apply andb_true_iff in Hc as [Hq Hb].
    apply negb_true_iff in Hq, Hb, Hlf, Hf.
    unfold lex_step. rewrite Hf, Hq, Hb, Hlf. simpl.
    rewrite (IH _ Hv). unfold snoc. rewrite str_app_assoc. reflexivity.
Qed.

(** The closing quote ends the literal; the end of the line follows. *)
Lemma lex_close (q : ascii) (acc : string) (b : bool) :
  Chr.is_quote q = true ->
  lex (LStr q acc) (String q (eol b)) = Some (TStr acc :: eol_tokens b).
Proof.
  intros Hq.
  assert (q = Chr.DQUOTE \/ q = Chr.SQUOTE) as [-> | ->].
  { unfold Chr.is_quote in Hq. apply orb_true_iff in Hq as [H|H];
      apply Ascii.eqb_eq in H; auto. }
  all: destruct acc, b; reflexivity.
Qed.

Lemma lex_run_equals (q : ascii) (n : string) :
  Chr.is_quote q = true ->
  lex_run (LName n) (" = " +:+ String q "")
  = Some ([TName n; TOp "="], LStr q "").
Proof.
  intros Hq.
  assert (q = Chr.DQUOTE \/ q = Chr.SQUOTE) as [-> | ->].
  { unfold Chr.is_quote in Hq. apply orb_true_iff in Hq as [H|H];
      apply Ascii.eqb_eq in H; auto. }
  all: reflexivity.
Qed.

Lemma lex_run_preamble :
  lex_run LBol (preamble +:+ marker) = Some ([TNewline], LName marker).
Proof. reflexivity. Qed.

Lemma assignment_line_assoc (sfx : string) (q : ascii) (v : string) (b : bool) :
  preamble +:+ assignment_line (marker +:+ sfx) q v b
  = (preamble +:+ marker) +:+ sfx +:+ (" = " +:+ String q "")
    +:+ v +:+ String q (eol b).
Proof.
  unfold assignment_line. rewrite !str_app_assoc. reflexivity.
Qed.

(** The tokens of the snippet built from [__version__<sfx> = qvq]. *)
Lemma lex_assignment (sfx : string) (q : ascii) (v : string) (b : bool) :
  id_suffix sfx = true -> Chr.is_quote q = true -> plain_body q v = true ->
  lex LBol (preamble +:+ assignment_line (marker +:+ sfx) q v b)
  = Some ([TNewline; TName (marker +:+ sfx); TOp "="; TStr v] ++ eol_tokens b).
Proof.
  intros Hsfx Hq Hv. rewrite assignment_line_assoc.
  rewrite lex_app, lex_run_preamble.
  rewrite lex_app, (lex_run_name _ _ Hsfx).
  rewrite lex_app, (lex_run_equals _ _ Hq).
  rewrite lex_app, (lex_run_body _ _ _ Hv).
  rewrite (lex_close _ _ _ Hq). reflexivity.
Qed.

Lemma is_reserved_marker (sfx : string) : is_reserved (marker +:+ sfx) = false.
Proof. reflexivity. Qed.

(** The snippet is one assignment of a string literal. *)
Lemma parse_assignment (sfx : string) (q : ascii) (v : string) (b : bool) :
  id_suffix sfx = true -> Chr.is_quote q = true -> plain_body q v = true ->
  parse_program (preamble +:+ assignment_line (marker +:+ sfx) q v b)
  = Some [SAssign (marker +:+ sfx) (EStr v)].
Proof.
  intros Hsfx Hq Hv. unfold parse_program.
  rewrite (lex_assignment _ _ _ _ Hsfx Hq Hv).
  unfold parse_stmts, logical_lines, parse_stmt.
  destruct b; simpl; reflexivity.
Qed.

(** ** The pipeline after the loop *)

Lemma world_eta (w : world) :
  World (files w) (handles w) (stdout w) (encoding w) (module_globals w) = w.
Proof. destruct w; reflexivity. Qed.

Lemma close_open (w : world) :
  close script_path (set_handles (script_path :: handles w) w) = w.
Proof. unfold close, set_handles. simpl. apply world_eta. Qed.

Lemma script_lines_bytes (w : world) (lines : list string) :
  script_lines w = Some lines ->
  exists wr bytes text,
    files w !! script_path = Some (Regular true wr bytes) /\
    decode_file (encoding w) bytes = Decoded text /\
    lines = text_lines (universal_newlines text).
Proof.
  unfold script_lines, script_bytes.
  destruct (files w !! script_path) as [[|[] wr bytes]|]; try discriminate.
  destruct (decode_file (encoding w) bytes) as [text| |] eqn:Hdec;
    try discriminate.
  intros [= <-]. exists wr, bytes, text. repeat split. exact Hdec.
Qed.

(** Once the script is open and decodes, the handle is closed again
    before [exec] runs, and what is left is [resolve] on the outcome of
    the loop. *)
Lemma get_version_opened (w : world) (lines : list string) :
  script_lines w = Some lines ->
  get_version w = resolve (fst (scan lines None 0)) w.
Proof.
  intros Hlines.
  destruct (script_lines_bytes w lines Hlines) as (wr & bytes & text & Hf & Hd & ->).
  unfold get_version, resolve, py_bind at 1 3, with_open_rt, open_rt.
  rewrite Hf. unfold py_bind at 1, iterate. cbn [encoding set_handles].
  rewrite Hd. cbn [py_ret]. rewrite close_open. reflexivity.
Qed.

(** Reading the script fails: the exception goes through, the handle is
    closed again. *)
Lemma get_version_read_fails (w : world) (e : exn) :
  script_failure w = Some e -> get_version w = (Raise e, w).
Proof.
  unfold script_failure, get_version, py_bind at 1, with_open_rt, open_rt.
  destruct (files w !! script_path) as [[|[] wr bytes]|];
    try (intros [= <-]; reflexivity).
  unfold py_bind at 1, iterate. cbn [encoding set_handles].
  destruct (decode_file (encoding w) bytes); try discriminate.
  intros [= <-]. rewrite close_open. reflexivity.
Qed.

(** Without lines from the script there is no value. *)
Lemma get_version_no_lines (w : world) (v : value) :
  script_lines w = None -> fst (get_version w) <> Return v.
Proof.
  unfold script_lines, script_bytes, get_version, py_bind at 1,
    with_open_rt, open_rt.
  destruct (files w !! script_path) as [[|[] wr bytes]|];
    try (intros _; discriminate).
  unfold py_bind at 1, iterate. cbn [encoding set_handles].
  destruct (decode_file (encoding w) bytes); try discriminate;
    intros _; discriminate.
Qed.

Lemma get_version_not_opened (w : world) :
  script_bytes w = None ->
  exists e, is_OSError e = true /\ get_version w = (Raise e, w).
Proof.
  intros Hnone.
  assert (He : exists e, is_OSError e = true /\ script_failure w = Some e).
  { unfold script_bytes in Hnone. unfold script_failure.
    destruct (files w !! script_path) as [[|[] wr bytes]|]; try discriminate;
      eexists; (split; [|reflexivity]); reflexivity. }
  destruct He as (e & He & Hf). exists e. split; [exact He|].
  apply get_version_read_fails. exact Hf.
Qed.

Lemma exec_assignment (sfx : string) (q : ascii) (v : string) (b : bool) (w : world) :
  id_suffix sfx = true -> Chr.is_quote q = true -> plain_body q v = true ->
  py_exec (Some (preamble +:+ assignment_line (marker +:+ sfx) q v b)) ∅ w
  = (Return (<[marker +:+ sfx := VStr v]> (<["__builtins__" := VBuiltins]> ∅)), w).
Proof.
  intros Hsfx Hq Hv. unfold py_exec.
  rewrite (parse_assignment _ _ _ _ Hsfx Hq Hv). reflexivity.
Qed.

(** A marker line [__version__ = qvq] resolves to [v]. *)
Lemma resolve_version (q : ascii) (v : string) (b : bool) (w : world) :
  Chr.is_quote q = true -> plain_body q v = true ->
  resolve (Some (preamble +:+ assignment_line marker q v b)) w
  = (Return (VStr v), w).
Proof.
  intros Hq Hv. unfold resolve, py_bind.
  change marker with (marker +:+ "") at 1.
  rewrite (exec_assignment "" q v b w eq_refl Hq Hv).
  unfold subscript. rewrite lookup_insert_eq. reflexivity.
Qed.


Lemma assignment_line_is_marker (sfx : string) (q : ascii) (v : string) (b : bool) :
  is_marker_line (assignment_line (marker +:+ sfx) q v b) = true.
Proof.
  apply is_marker_line_spec. unfold assignment_line.
  rewrite str_app_assoc. eexists. reflexivity.
Qed.

Lemma marker_assignment_is_marker (q : ascii) (v : string) (b : bool) :
  is_marker_line (assignment_line marker q v b) = true.
Proof. exact (assignment_line_is_marker "" q v b). Qed.

Lemma version_string_plain (q : ascii) (v : string) :
  Chr.is_quote q = true -> is_version_string v = true -> plain_body q v = true.
Proof.
  intros Hq. apply string_forallb_impl. intros c.
  assert (q = Chr.DQUOTE \/ q = Chr.SQUOTE) as [-> | ->].
  { unfold Chr.is_quote in Hq. apply orb_true_iff in Hq as [H|H];
      apply Ascii.eqb_eq in H; auto. }
  all: destruct c as [[] [] [] [] [] [] [] []]; intros H;
    solve [reflexivity | discriminate H].
Qed.

(** ** Sources that call nothing leave the world alone *)





Lemma resolve_absent (w : world) : resolve None w = (Raise TypeError, w).
Proof. reflexivity. Qed.

(** ** [get_version] on the two kinds of script *)

(** The first marker line is [__version__ = qvq]. *)
Lemma get_version_assignment (w : world) (pre post : list string)
    (q : ascii) (v : string) (b : bool) :
  no_marker pre = true ->
  Chr.is_quote q = true ->
  plain_body q v = true ->
  script_lines w = Some (pre ++ assignment_line marker q v b :: post) ->
  get_version w = (Return (VStr v), w).
Proof.
  intros Hpre Hq Hv Hlines.
  rewrite (get_version_opened w _ Hlines).
  rewrite (scan_first pre post _ Hpre (marker_assignment_is_marker _ _ _)).
  apply resolve_version; assumption.
Qed.

(** No line starts with the marker. *)
Lemma get_version_no_marker (w : world) (lines : list string) :
  script_lines w = Some lines ->
  no_marker lines = true ->
  fst (scan lines None 0) = None /\ get_version w = (Raise TypeError, w).
Proof.
  intros Hlines Hno. rewrite (get_version_opened w _ Hlines).
  rewrite (scan_none lines None 0 Hno). split; reflexivity.
Qed.

(** * The claims *)
















(** C5.  When the script path names no file that can be opened for
    reading (no such file, a directory, or no permission), [get_version]
    fails with the [OSError] that [open] raises; when there is no such
    file it is [FileNotFoundError]. *)
Theorem missing_script_fails (w : world) :
  script_bytes w = None ->
  (exists e, is_OSError e = true /\ get_version w = (Raise e, w)) /\
  (files w !! script_path = None ->
   get_version w = (Raise (FileNotFoundError script_path), w)).
Proof.
  intros Hnone. split.
  - apply get_version_not_opened. exact Hnone.
  - intros Hfile. apply get_version_read_fails.
    unfold script_failure. rewrite Hfile. reflexivity.
Qed.

Lemma missing_script_fails_witness :
  (exists e, is_OSError e = true /\
             get_version (World ∅ [] "" Utf8 ∅)
             = (Raise e, World ∅ [] "" Utf8 ∅)) /\
  (files (World ∅ [] "" Utf8 ∅) !! script_path = None ->
   get_version (World ∅ [] "" Utf8 ∅)
   = (Raise (FileNotFoundError script_path), World ∅ [] "" Utf8 ∅)).
Proof.
  apply (missing_script_fails (World ∅ [] "" Utf8 ∅)). reflexivity.
Defined.


















(** The float and tuple of the claim, evaluated. *)
Example float_version_returned :
  fst (get_version (script_world float_line)) = Return (VFloat 12 1) /\
  is_str (VFloat 12 1) = false.
Proof. split; reflexivity. Qed.

Example tuple_version_returned :
  fst (get_version (script_world tuple_line))
  = Return (VTuple [VInt 1; VInt 2; VInt 0]) /\
  is_str (VTuple [VInt 1; VInt 2; VInt 0]) = false.
Proof. split; reflexivity. Qed.

(** * Further properties of the loop and of the evaluation *)

(** The loop either matches nothing or stops at a first marker line. *)
Lemma scan_cases (lines : list string) :
  (no_marker lines = true /\ fst (scan lines None 0) = None) \/
  (exists pre line post,
     lines = pre ++ line :: post /\ no_marker pre = true /\
     is_marker_line line = true /\
     scan lines None 0 = (Some (preamble +:+ line), S (List.length pre))).
Proof.
  induction lines as [|l lines IH].
  - left. split; reflexivity.
  - destruct (is_marker_line l) eqn:Hl.
    + right. exists [], l, lines. repeat split; try reflexivity; [exact Hl|].
      simpl. rewrite Hl. reflexivity.
    + destruct IH as [[Hno Hscan] | (pre & line & post & -> & Hpre & Hline & Hscan)].
      * left. split.
        -- unfold no_marker in *. simpl. rewrite Hl, Hno. reflexivity.
        -- simpl. rewrite Hl. rewrite scan_none by exact Hno. reflexivity.
      * right. exists (l :: pre), line, post. repeat split.
        -- unfold no_marker in *. simpl. rewrite Hl, Hpre. reflexivity.
        -- exact Hline.
        -- apply (scan_first (l :: pre) post line); [|exact Hline].
           unfold no_marker in *. simpl. rewrite Hl, Hpre. reflexivity.
Qed.

(** X1.  When the script is read as text (its bytes decode), the outcome
    of [get_version] depends on its lines through the first marker line
    only, whatever that line holds: the handle is closed again, and what
    runs is [exec] on the snippet built from that line, followed by the
    subscription, in the world as it was before the call. *)
Theorem get_version_first_marker_only (w : world) (pre post : list string)
    (line : string) :
  no_marker pre = true ->
  is_marker_line line = true ->
  script_lines w = Some (pre ++ line :: post) ->
  get_version w = resolve (Some (preamble +:+ line)) w.
Proof.
  intros Hpre Hline Hlines.
  rewrite (get_version_opened w _ Hlines).
  rewrite (scan_first pre post line Hpre Hline). reflexivity.
Qed.

Lemma get_version_first_marker_only_witness :
  get_version (script_world (concat_lines [shebang; print_line; tuple_line]))
  = resolve (Some (preamble +:+ print_line))
      (script_world (concat_lines [shebang; print_line; tuple_line])).
Proof.
  apply (get_version_first_marker_only _ [shebang] [tuple_line] print_line);
    reflexivity.
Defined.

(** X2.  [get_version] returns a value only when the script has a line
    that starts with the marker, and the value is the one that the
    snippet built from the first such line binds to [__version__]. *)
Theorem returned_value_comes_from_marker_line (w : world) (v : value) :
  fst (get_version w) = Return v ->
  exists pre line post ns,
    script_lines w = Some (pre ++ line :: post) /\
    no_marker pre = true /\
    is_marker_line line = true /\
    fst (py_exec (Some (preamble +:+ line)) ∅ w) = Return ns /\
    ns !! marker = Some v.
Proof.
  intros Hret. destruct (script_lines w) as [lines|] eqn:Hlines.
  - rewrite (get_version_opened w lines Hlines) in Hret.
    destruct (scan_cases lines)
      as [[_ Hnone] | (pre & line & post & -> & Hpre & Hline & Hscan)].
    + rewrite Hnone, resolve_absent in Hret. discriminate Hret.
    + rewrite Hscan in Hret. cbn [fst] in Hret.
      unfold resolve, py_bind in Hret.
      destruct (py_exec (Some (preamble +:+ line)) ∅ w) as [[ns| |] w'] eqn:Hexec;
        try discriminate Hret.
      exists pre, line, post, ns.
      split; [reflexivity|]. split; [exact Hpre|]. split; [exact Hline|].
      split; [rewrite Hexec; reflexivity|].
      unfold subscript in Hret.
      destruct (ns !! marker) as [v'|]; [|discriminate Hret].
      injection Hret as ->. reflexivity.
  - destruct (get_version_no_lines w v Hlines Hret).
Qed.

Lemma returned_value_comes_from_marker_line_witness :
  exists pre line post ns,
    script_lines (script_world (concat_lines two_markers_script))
    = Some (pre ++ line :: post) /\
    no_marker pre = true /\
    is_marker_line line = true /\
    fst (py_exec (Some (preamble +:+ line)) ∅
           (script_world (concat_lines two_markers_script))) = Return ns /\
    ns !! marker = Some (VStr "1.0.0").
Proof.
  apply (returned_value_comes_from_marker_line
           (script_world (concat_lines two_markers_script)) (VStr "1.0.0")).
  reflexivity.
Defined.

(** X3.  The loop leaves [version_str] at [None] exactly when no line
    starts with the marker, and it never draws more lines than the file
    has. *)
Theorem scan_none_iff (lines : list string) :
  (fst (scan lines None 0) = None <-> no_marker lines = true) /\
  (snd (scan lines None 0) <= List.length lines)%nat.
Proof.
  destruct (scan_cases lines)
    as [[Hno Hnone] | (pre & line & post & -> & Hpre & Hline & Hscan)].
  - split; [split; intros _; assumption|].
    rewrite scan_none by exact Hno. simpl. lia.
  - rewrite Hscan. simpl. split.
    + split; [discriminate|]. intros Hno. unfold no_marker in Hno.
      rewrite forallb_app in Hno. apply andb_true_iff in Hno as [_ Hno].
      simpl in Hno. rewrite Hline in Hno. discriminate Hno.
    + rewrite length_app. simpl. lia.
Qed.

(** X4.  The preamble that [get_version] puts before the marker line is
    a comment line: [exec] does with the snippet what it does with the
    line alone. *)
Theorem preamble_is_inert (src : string) (ns : gmap string value) (w : world) :
  py_exec (Some (preamble +:+ src)) ns w = py_exec (Some src) ns w.
Proof.
  unfold py_exec, parse_program.
  rewrite lex_app.
  change (lex_run LBol preamble) with (Some ([TNewline], LBol)).
  cbv beta iota.
  destruct (lex LBol src) as [ts|]; reflexivity.
Qed.

Lemma text_lines_nonempty (s : string) : Forall (fun l => l <> "") (text_lines s).
Proof.
  induction s as [|c s IH]; simpl; [constructor|].
  destruct (Ascii.eqb c Chr.LF).
  - constructor; [discriminate | exact IH].
  - destruct (text_lines s) as [|l ls]; constructor; try discriminate.
    + constructor.
    + inversion IH; assumption.
Qed.

(** X5.  Iterating over the text cuts it into lines and loses nothing:
    the lines put together again are the text, and no line is empty. *)
Theorem text_lines_partition (s : string) :
  concat_lines (text_lines s) = s /\ Forall (fun l => l <> "") (text_lines s).
Proof.
  split; [|apply text_lines_nonempty].
  induction s as [|c s IH]; simpl; [reflexivity|].
  destruct (Ascii.eqb c Chr.LF).
  - cbn. f_equal. exact IH.
  - destruct (text_lines s) as [|l ls]; cbn in *; f_equal; exact IH.
Qed.

(** ** Free spacing and trailing comments *)

Lemma lex_run_app (st : lex_state) (s1 s2 : string) :
  lex_run st (s1 +:+ s2) =
  match lex_run st s1 with
  | None => None
  | Some (ts, st') =>
      match lex_run st' s2 with
      | None => None
      | Some (ts', st'') => Some (ts ++ ts', st'')
      end
  end.
Proof.
  revert st. induction s1 as [|c s1 IH]; intros st; simpl.
  - destruct (lex_run st s2) as [[ts st']|]; reflexivity.
  - destruct (lex_step st c) as [[ts st']|]; [|reflexivity].
    rewrite IH. destruct (lex_run st' s1) as [[ts1 st1]|]; [|reflexivity].
    destruct (lex_run st1 s2) as [[ts2 st2]|]; [|reflexivity].
    rewrite app_assoc. reflexivity.
Qed.

Lemma blank_cases (c : ascii) :
  Chr.is_blank c = true -> c = Chr.SPACE \/ c = Chr.TAB \/ c = Chr.FF.
Proof.
  unfold Chr.is_blank. intros H.
  apply orb_true_iff in H as [H|H]; [apply orb_true_iff in H as [H|H]|];
    apply Ascii.eqb_eq in H; auto.
Qed.

Lemma quote_cases (q : ascii) :
  Chr.is_quote q = true -> q = Chr.DQUOTE \/ q = Chr.SQUOTE.
Proof.
  unfold Chr.is_quote. intros H.
  apply orb_true_iff in H as [H|H]; apply Ascii.eqb_eq in H; auto.
Qed.

Lemma lex_run_blanks (bs : string) :
  blanks bs = true -> lex_run LCode bs = Some ([], LCode).
Proof.
  induction bs as [|c bs IH]; intros H; [reflexivity|].
  simpl in H. apply andb_true_iff in H as [Hc Hbs].
  cbn [lex_run]. destruct (blank_cases c Hc) as [-> | [-> | ->]];
    cbn; rewrite (IH Hbs); reflexivity.
Qed.

(** Blanks and the equals sign after the name. *)
Lemma lex_run_name_equals (n bs : string) :
  blanks bs = true ->
  lex_run (LName n) (bs +:+ "=") = Some ([TName n; TOp "="], LCode).
Proof.
  destruct bs as [|c bs]; intros H; [reflexivity|].
  simpl in H. apply andb_true_iff in H as [Hc Hbs].
  change (String c bs +:+ "=") with (String c (bs +:+ "=")).
  cbn [lex_run].
  assert (Hstep : lex_step (LName n) c = Some ([TName n], LCode))
    by (destruct (blank_cases c Hc) as [-> | [-> | ->]]; reflexivity).
  rewrite Hstep, lex_run_app, (lex_run_blanks bs Hbs). reflexivity.
Qed.

(** Blanks and the opening quote after the equals sign. *)
Lemma lex_run_open_quote (bs : string) (q : ascii) :
  blanks bs = true -> Chr.is_quote q = true ->
  lex_run LCode (bs +:+ String q "") = Some ([], LStr q "").
Proof.
  intros Hbs Hq. rewrite lex_run_app, (lex_run_blanks bs Hbs).
  destruct (quote_cases q Hq) as [-> | ->]; reflexivity.
Qed.

Lemma lex_run_comment (t : string) :
  string_forallb comment_char t = true ->
  lex_run LComment t = Some ([], LComment).
Proof.
  induction t as [|c t IH]; intros H; [reflexivity|].
  simpl in H. apply andb_true_iff in H as [Hc Ht].
  unfold comment_char in Hc. apply andb_true_iff in Hc as [Hlf Hf].
  apply negb_true_iff in Hlf, Hf.
  cbn [lex_run]. unfold lex_step. rewrite Hf, Hlf, (IH Ht). reflexivity.
Qed.

(** What may follow the literal: a comment and the end of the line. *)
Lemma lex_comment_eol (comment : option string) (b : bool) :
  match comment with
  | Some t => string_forallb comment_char t = true
  | None => True
  end ->
  lex LCode (trailing_comment comment +:+ eol b) = Some (eol_tokens b).
Proof.
  destruct comment as [t|]; intros Ht.
  - change (trailing_comment (Some t) +:+ eol b)
      with (String Chr.HASH (t +:+ eol b)).
    change (lex LCode (String Chr.HASH (t +:+ eol b)))
      with (match lex LComment (t +:+ eol b) with
            | None => None
            | Some ts' => Some ([] ++ ts')
            end).
    rewrite lex_app, (lex_run_comment t Ht). destruct b; reflexivity.
  - destruct b; reflexivity.
Qed.

Lemma lex_tail (b3 : string) (comment : option string) (b : bool) :
  blanks b3 = true ->
  match comment with
  | Some t => string_forallb comment_char t = true
  | None => True
  end ->
  lex LCode (b3 +:+ trailing_comment comment +:+ eol b) = Some (eol_tokens b).
Proof.
  intros Hb3 Hc. rewrite lex_app, (lex_run_blanks b3 Hb3).
  rewrite (lex_comment_eol comment b Hc). reflexivity.
Qed.

(** The closing quote, then blanks, a comment and the end of the line. *)
Lemma lex_close_tail (q : ascii) (acc b3 : string) (comment : option string)
    (b : bool) :
  Chr.is_quote q = true ->
  blanks b3 = true ->
  match comment with
  | Some t => string_forallb comment_char t = true
  | None => True
  end ->
  lex (LStr q acc) (String q (b3 +:+ trailing_comment comment +:+ eol b))
  = Some (TStr acc :: eol_tokens b).
Proof.
  intros Hq Hb3 Hc.
  assert (Htail := lex_tail b3 comment b Hb3 Hc).
  destruct acc as [|a acc].
  - (* the empty literal: one more character is looked at *)
    destruct b3 as [|c b3].
    + destruct comment as [t|].
      * change ("" +:+ trailing_comment (Some t) +:+ eol b)
          with (String Chr.HASH (t +:+ eol b)).
        assert (Hcm : lex LComment (t +:+ eol b) = Some (eol_tokens b))
          by (rewrite lex_app, (lex_run_comment t Hc); destruct b; reflexivity).
        destruct (quote_cases q Hq) as [-> | ->]; cbn; rewrite Hcm; reflexivity.
      * destruct (quote_cases q Hq) as [-> | ->]; destruct b; reflexivity.
    + simpl in Hb3. apply andb_true_iff in Hb3 as [Hcb Hb3].
      assert (Hrest := lex_tail b3 comment b Hb3 Hc).
      change (String c b3 +:+ trailing_comment comment +:+ eol b)
        with (String c (b3 +:+ trailing_comment comment +:+ eol b)).
      destruct (quote_cases q Hq) as [-> | ->];
        destruct (blank_cases c Hcb) as [-> | [-> | ->]];
        cbn; rewrite Hrest; reflexivity.
  - destruct (quote_cases q Hq) as [-> | ->]; cbn; rewrite Htail; reflexivity.
Qed.

Lemma spaced_line_assoc (b1 b2 b3 : string) (q : ascii) (v : string)
    (comment : option string) (b : bool) :
  preamble +:+ spaced_line b1 b2 b3 q v comment b
  = (preamble +:+ marker) +:+ (b1 +:+ "=") +:+ (b2 +:+ String q "")
    +:+ v +:+ String q (b3 +:+ trailing_comment comment +:+ eol b).
Proof.
  unfold spaced_line. rewrite !str_app_assoc. reflexivity.
Qed.

Lemma lex_spaced_line (b1 b2 b3 : string) (q : ascii) (v : string)
    (comment : option string) (b : bool) :
  blanks b1 = true -> blanks b2 = true -> blanks b3 = true ->
  Chr.is_quote q = true -> plain_body q v = true ->
  match comment with
  | Some t => string_forallb comment_char t = true
  | None => True
  end ->
  lex LBol (preamble +:+ spaced_line b1 b2 b3 q v comment b)
  = Some ([TNewline; TName marker; TOp "="; TStr v] ++ eol_tokens b).
Proof.
  intros H1 H2 H3 Hq Hv Hc. rewrite spaced_line_assoc.
  rewrite lex_app, lex_run_preamble.
  rewrite lex_app, (lex_run_name_equals _ _ H1).
  rewrite lex_app, (lex_run_open_quote _ _ H2 Hq).
  rewrite lex_app, (lex_run_body _ _ _ Hv).
  rewrite (lex_close_tail _ _ _ _ _ Hq H3 Hc). reflexivity.
Qed.

Lemma resolve_spaced_line (b1 b2 b3 : string) (q : ascii) (v : string)
    (comment : option string) (b : bool) (w : world) :
  blanks b1 = true -> blanks b2 = true -> blanks b3 = true ->
  Chr.is_quote q = true -> plain_body q v = true ->
  match comment with
  | Some t => string_forallb comment_char t = true
  | None => True
  end ->
  resolve (Some (preamble +:+ spaced_line b1 b2 b3 q v comment b)) w
  = (Return (VStr v), w).
Proof.
  intros H1 H2 H3 Hq Hv Hc. unfold resolve, py_bind, py_exec, parse_program.
  rewrite (lex_spaced_line _ _ _ _ _ _ _ H1 H2 H3 Hq Hv Hc).
  destruct b; reflexivity.
Qed.

Lemma spaced_line_is_marker (b1 b2 b3 : string) (q : ascii) (v : string)
    (comment : option string) (b : bool) :
  is_marker_line (spaced_line b1 b2 b3 q v comment b) = true.
Proof. apply is_marker_line_spec. eexists. reflexivity. Qed.

(** X6.  When the script is read as text, the blanks around the equals
    sign and after the literal, and a comment at the end of the first
    marker line, do not matter: [get_version] returns the body of the
    literal. *)
Theorem spacing_and_comment_ignored (w : world) (pre post : list string)
    (b1 b2 b3 : string) (q : ascii) (v : string) (comment : option string)
    (b : bool) :
  no_marker pre = true ->
  blanks b1 = true -> blanks b2 = true -> blanks b3 = true ->
  Chr.is_quote q = true ->
  plain_body q v = true ->
  match comment with
  | Some t => string_forallb comment_char t = true
  | None => True
  end ->
  script_lines w = Some (pre ++ spaced_line b1 b2 b3 q v comment b :: post) ->
  get_version w = (Return (VStr v), w).
Proof.
  intros Hpre H1 H2 H3 Hq Hv Hc Hlines.
  rewrite (get_version_opened w _ Hlines).
  rewrite (scan_first pre post (spaced_line b1 b2 b3 q v comment b) Hpre
             (spaced_line_is_marker _ _ _ _ _ _ _)).
  apply resolve_spaced_line; assumption.
Qed.

Lemma spacing_and_comment_ignored_witness :
  get_version (script_world (concat_lines spaced_script))
  = (Return (VStr "1.2.0"), script_world (concat_lines spaced_script)).
Proof.
  apply (spacing_and_comment_ignored _ [shebang] ["main()" +:+ nl]
           "" "  " " " Chr.SQUOTE "1.2.0" (Some " released") true);
    reflexivity.
Defined.

(** ** Windows line ends *)







(** ** The module body *)

(** X8.  When reading the script fails or the script, read as text,
    has no line that starts with the marker, the module body fails with
    the error of [get_version] (an [OSError] of [open], a
    [UnicodeDecodeError] of the reading, or the [TypeError] of [exec])
    in an unchanged world, and [setup] is not called: the outcome is the
    same for every [setup]. *)
Theorem module_body_aborts (w : world) :
  unusable_script w = true ->
  exists e,
    (is_OSError e = true \/ e = UnicodeDecodeError \/ e = TypeError) /\
    get_version w = (Raise e, w) /\
    forall setup : SetupPy.setup_args -> py value,
      SetupPy.module_body setup w = (Raise e, w).
Proof.
  unfold unusable_script. intros Hbad.
  assert (Hget : exists e,
             (is_OSError e = true \/ e = UnicodeDecodeError \/ e = TypeError) /\
             get_version w = (Raise e, w)).
  { destruct (script_lines w) as [lines|] eqn:Hlines.
    - exists TypeError. split; [right; right; reflexivity|].
      apply (get_version_no_marker w lines Hlines Hbad).
    - destruct (script_failure w) as [e|] eqn:Hfail; [|discriminate].
      exists e. split; [|apply get_version_read_fails; exact Hfail].
      unfold script_failure in Hfail.
      destruct (files w !! script_path) as [[|[] wr bytes]|];
        try (injection Hfail as <-; left; reflexivity).
      destruct (decode_file (encoding w) bytes); try discriminate.
      injection Hfail as <-. right; left; reflexivity. }
  destruct Hget as (e & He & Hget). exists e.
  split; [exact He|]. split; [exact Hget|].
  intros setup. unfold SetupPy.module_body, py_bind at 1. rewrite Hget.
  reflexivity.
Qed.

Lemma module_body_aborts_witness :
  exists e,
    (is_OSError e = true \/ e = UnicodeDecodeError \/ e = TypeError) /\
    get_version (script_world (concat_lines bad_no_marker_script))
    = (Raise e, script_world (concat_lines bad_no_marker_script)) /\
    forall setup : SetupPy.setup_args -> py value,
      SetupPy.module_body setup
        (script_world (concat_lines bad_no_marker_script))
      = (Raise e, script_world (concat_lines bad_no_marker_script)).
Proof.
  apply (module_body_aborts
           (script_world (concat_lines bad_no_marker_script))).
  reflexivity.
Defined.

(** X9.  When the script is read as text and its first marker line is
    [__version__ = qvq], [setup] is called once, in the world as it was,
    with the string [v] as its version and the fixed metadata; among
    these the script that is installed is the file the version was read
    from. *)
Theorem module_body_passes_version (setup : SetupPy.setup_args -> py value)
    (w : world) (pre post : list string) (q : ascii) (v : string) (b : bool) :
  no_marker pre = true ->
  Chr.is_quote q = true ->
  plain_body q v = true ->
  script_lines w = Some (pre ++ assignment_line marker q v b :: post) ->
  SetupPy.module_body setup w
  = (run setup (SetupPy.keywords_of (VStr v)); py_ret tt) w /\
  SetupPy.version (SetupPy.keywords_of (VStr v)) = VStr v /\
  SetupPy.scripts (SetupPy.keywords_of (VStr v)) = [script_path].
Proof.
  intros Hpre Hq Hv Hlines. split; [|split; reflexivity].
  unfold SetupPy.module_body, py_bind at 1.
  rewrite (get_version_assignment w pre post q v b Hpre Hq Hv Hlines).
  reflexivity.
Qed.

Lemma module_body_passes_version_witness :
  SetupPy.module_body SetupPy.echo_setup
    (script_world (concat_lines two_markers_script))
  = (run SetupPy.echo_setup (SetupPy.keywords_of (VStr "1.0.0")); py_ret tt)
      (script_world (concat_lines two_markers_script)) /\
  SetupPy.version (SetupPy.keywords_of (VStr "1.0.0")) = VStr "1.0.0" /\
  SetupPy.scripts (SetupPy.keywords_of (VStr "1.0.0")) = [script_path].
Proof.
  apply (module_body_passes_version SetupPy.echo_setup _ [shebang]
           ["import sys" +:+ nl; version_line "2.0.0" true]
           Chr.DQUOTE "1.0.0" true); reflexivity.
Defined.
